(** * Transaction context manager of adonisjs-transaction-decorator

    A shallow embedding of [src/transactional.ts]: the execution-scoped
    context store, the commit / rollback / retry controller
    [TransactionManager.runInTransaction], the option-injection helper
    [injectTransaction] and the [TransactionUtils] helpers [conditional]
    and [withSavepoint], followed by the properties of the specification
    that concern them; then the [transaction] decorator, the static
    methods of the [Transactional] mixin and [TransactionUtils.sequence],
    with properties of their own.  [TransactionUtils.parallel], whose
    operations interleave, and the instance methods of the mixin, which
    rest on the prototype chain of the model, are outside the model.

    Promises are modelled by their settled outcome together with the
    effects performed on the way: an asynchronous function is a function
    of the value held by the [AsyncLocalStorage] on its execution path and
    of the state of the outside world.  Numbers are integers. *)

From Stdlib Require Import ZArith List Lia Ascii.
From stdpp Require Import gmap strings pretty.
From Equations Require Import Equations.
From Equations.Prop Require Import Logic.
Import ListNotations.

Open Scope string_scope.
Open Scope list_scope.

(** ** Data model *)

(** A thrown [Error]: its kind (constructor name) and its message. *)
Record Error := mkError { err_name : string; err_message : string }.

(** A settled promise. *)
Inductive Outcome (T : Type) : Type :=
| Resolved (value : T)
| Rejected (reason : Error).
Arguments Resolved {T} value.
Arguments Rejected {T} reason.

(** [TransactionClientContract]: an opaque reference to a live
    transaction, identified by the rank of the [transaction()] call that
    produced it. *)
Definition TransactionClient := nat.

Inductive IsolationLevel :=
| ReadUncommitted | ReadCommitted | RepeatableRead | Serializable.

Record RetryOptions := mkRetry { attempts : Z; delay : Z }.

(** [TransactionOptions]; every field is optional in the source. *)
Record TransactionOptions := mkOptions {
  connection : option string;
  isolationLevel : option IsolationLevel;
  debug : option bool;
  timeout : option Z;
  retry : option RetryOptions
}.

(** The default value [{}] of the [options] parameter. *)
Definition noOptions : TransactionOptions :=
  mkOptions None None None None None.

(** [TransactionContext] *)
Record TransactionContext := mkContext {
  ctx_transaction : TransactionClient;
  ctx_id : string;
  ctx_startTime : Z;
  ctx_options : TransactionOptions
}.

(** ** The outside world *)

(** [db] or [db.connection(name)]. *)
Inductive Database :=
| DefaultConnection
| NamedConnection (name : string).

(** Calls made to the data layer and to the timer, in the order made. *)
Inductive Call :=
| CallTransaction (database : Database) (level : option IsolationLevel)
| CallCommit (trx : TransactionClient)
| CallRollback (trx : TransactionClient)
| CallSetTimeout (ms : Z).

Record World := mkWorld {
  now : Z;                   (* what Date.now() returns *)
  transactionCounter : Z;    (* TransactionManager.transactionCounter *)
  opened : nat;              (* transaction() calls received by the data layer *)
  calls : list Call;         (* oldest first *)
  console : list string      (* lines written by console.log, oldest first *)
}.

(** How the data layer answers: [None] is success, [Some e] a rejection.
    The answer to [transaction()] depends on the rank of the call, the
    answers to [commit()] and [rollback()] on the transaction. *)
Record DataLayer := mkDataLayer {
  transaction_fails : nat -> option Error;
  commit_fails : TransactionClient -> option Error;
  rollback_fails : TransactionClient -> option Error
}.

(** The value of [storage.getStore()] on the current execution path. *)
Definition Store := option TransactionContext.

(** An [async] function: it reads the store of its execution path, acts
    on the world and settles. *)
Definition Async (T : Type) : Type := Store -> World -> Outcome T * World.

Definition record_call (c : Call) (w : World) : World :=
  mkWorld (now w) (transactionCounter w) (opened w) (calls w ++ [c]) (console w).

Definition console_log (line : string) (w : World) : World :=
  mkWorld (now w) (transactionCounter w) (opened w) (calls w) (console w ++ [line]).

(** [if (options.debug) console.log(line)] *)
Definition debug_log (options : TransactionOptions) (line : string) (w : World) : World :=
  match debug options with
  | Some true => console_log line w
  | _ => w
  end.

(** The delay that [setTimeout] honours: a delay below 1 or above
    2147483647 is set to 1. *)
Definition timer_delay (ms : Z) : Z :=
  if ((ms <? 1) || (2147483647 <? ms))%Z then 1%Z else ms.

(** [await new Promise(resolve => setTimeout(resolve, ms))]: the timer is
    requested with [ms] and the promise resolves once the delay the
    timer honours has passed. *)
Definition sleep (ms : Z) (w : World) : World :=
  let w' := record_call (CallSetTimeout ms) w in
  mkWorld (now w' + timer_delay ms) (transactionCounter w') (opened w') (calls w')
    (console w').

(** [storage.run(context, body)] *)
Definition storage_run {T} (context : TransactionContext) (body : Async T) : Async T :=
  fun _ w => body (Some context) w.

Section Manager.

Variable layer : DataLayer.

(** [database.transaction({ isolationLevel })] *)
Definition database_transaction (database : Database) (level : option IsolationLevel)
    (w : World) : Outcome TransactionClient * World :=
  let w' := record_call (CallTransaction database level) w in
  let w'' := mkWorld (now w') (transactionCounter w') (S (opened w')) (calls w') (console w') in
  match transaction_fails layer (opened w) with
  | Some e => (Rejected e, w'')
  | None => (Resolved (opened w), w'')
  end.

(** [trx.commit()] *)
Definition trx_commit (trx : TransactionClient) (w : World) : Outcome unit * World :=
  let w' := record_call (CallCommit trx) w in
  match commit_fails layer trx with
  | Some e => (Rejected e, w')
  | None => (Resolved tt, w')
  end.

(** [trx.rollback()] *)
Definition trx_rollback (trx : TransactionClient) (w : World) : Outcome unit * World :=
  let w' := record_call (CallRollback trx) w in
  match rollback_fails layer trx with
  | Some e => (Rejected e, w')
  | None => (Resolved tt, w')
  end.

(** ** class TransactionManager *)

Definition getCurrentContext (store : Store) : option TransactionContext := store.

Definition getCurrentTransaction (store : Store) : option TransactionClient :=
  ctx_transaction <$> getCurrentContext store.

Definition isInTransaction (store : Store) : bool :=
  match getCurrentContext store with Some _ => true | None => false end.

(** [++this.transactionCounter] on a double that started at 0 and only
    ever moved by [++]: the sum is exact below 2^53, and at 2^53 it
    rounds back to 2^53, where the counter stays. *)
Definition increment_counter (counter : Z) : Z :=
  if (counter <? 9007199254740992)%Z then (counter + 1)%Z else counter.

(** [`trx_${Date.now()}_${++this.transactionCounter}`].  Both numbers are
    integers below 10^21 (a time value is at most 8.64e15 in absolute
    value, the counter at most 2^53), which a template literal prints
    with all their decimal digits. *)
Definition generateTransactionId (w : World) : string * World :=
  let counter := increment_counter (transactionCounter w) in
  ("trx_" +:+ pretty (now w) +:+ "_" +:+ pretty counter,
   mkWorld (now w) counter (opened w) (calls w) (console w)).

(** The worlds in which the identifier is printed and counted exactly:
    the clock shows a time value and the counter has room for two more
    increments below 2^53. *)
Definition within_number_range (w : World) : Prop :=
  (Z.abs (now w) <= 8640000000000000)%Z /\
  (0 <= transactionCounter w < 9007199254740991)%Z.

(** [options.connection ? db.connection(options.connection) : db];
    the empty string is falsy. *)
Definition select_database (options : TransactionOptions) : Database :=
  match connection options with
  | Some name => if String.eqb name "" then DefaultConnection else NamedConnection name
  | None => DefaultConnection
  end.

(** Lines 102-117: the identifier, the transaction, the context and the
    start line. *)
Definition open_context (options : TransactionOptions) (w : World)
    : Outcome TransactionContext * World :=
  let '(transactionId, w1) := generateTransactionId w in
  match database_transaction (select_database options) (isolationLevel options) w1 with
  | (Rejected e, w2) => (Rejected e, w2)
  | (Resolved trx, w2) =>
      let context := mkContext trx transactionId (now w2) options in
      (Resolved context,
       debug_log options ("[Transaction] Starting transaction: " +:+ transactionId) w2)
  end.

(** [`${id} (${Date.now() - context.startTime}ms)`] *)
Definition with_duration (context : TransactionContext) (w : World) : string :=
  ctx_id context +:+ " (" +:+ pretty (now w - ctx_startTime context)%Z +:+ "ms)".

(** Lines 119-131: the body of [try]. *)
Definition try_block {T} (fn : Async T) (options : TransactionOptions)
    (context : TransactionContext) (w : World) : Outcome T * World :=
  match storage_run context fn None w with
  | (Rejected e, w1) => (Rejected e, w1)
  | (Resolved result, w1) =>
      match trx_commit (ctx_transaction context) w1 with
      | (Rejected e, w2) => (Rejected e, w2)
      | (Resolved _, w2) =>
          (Resolved result,
           debug_log options
             ("[Transaction] Committed transaction: " +:+ with_duration context w2) w2)
      end
  end.

(** Lines 133-138: the rollback that opens [catch]. *)
Definition rollback_block (options : TransactionOptions)
    (context : TransactionContext) (w : World) : Outcome unit * World :=
  match trx_rollback (ctx_transaction context) w with
  | (Rejected e, w1) => (Rejected e, w1)
  | (Resolved _, w1) =>
      (Resolved tt,
       debug_log options
         ("[Transaction] Rolled back transaction: " +:+ with_duration context w1) w1)
  end.

(** [{ ...options, retry: { ...options.retry, attempts: options.retry.attempts - 1 } }] *)
Definition decrement_retry (options : TransactionOptions) (r : RetryOptions)
    : TransactionOptions :=
  mkOptions (connection options) (isolationLevel options) (debug options)
    (timeout options) (Some (mkRetry (attempts r - 1) (delay r))).

(** Lines 141-145: the retry line and the wait. *)
Definition before_retry (options : TransactionOptions) (context : TransactionContext)
    (r : RetryOptions) (w : World) : World :=
  sleep (delay r)
    (debug_log options
       ("[Transaction] Retrying transaction: " +:+ ctx_id context +:+ " ("
          +:+ pretty (attempts r) +:+ " attempts left)") w).

(** What is left of the retry budget; the recursion of
    [runInTransaction] decreases it. *)
Definition retry_budget (options : TransactionOptions) : nat :=
  match retry options with
  | Some r => Z.to_nat (attempts r)
  | None => 0
  end.

Equations? runInTransaction {T : Type} (fn : Async T) (options : TransactionOptions)
    (store : Store) (w : World) : Outcome T * World
  by wf (retry_budget options) lt :=
runInTransaction fn options (Some existingContext) w :=
  fn (Some existingContext)
     (debug_log options
        ("[Transaction] Reusing existing transaction: " +:+ ctx_id existingContext) w);
runInTransaction fn options None w with open_context options w => {
  | (Rejected e, w1) := (Rejected e, w1);
  | (Resolved context, w1) with try_block fn options context w1 => {
    | (Resolved result, w2) := (Resolved result, w2);
    | (Rejected error, w2) with rollback_block options context w2 => {
      | (Rejected e, w3) := (Rejected e, w3);
      | (Resolved _, w3) with inspect (retry options) => {
        | exist _ None _ := (Rejected error, w3);
        | exist _ (Some r) Hretry with inspect (0 <? attempts r)%Z => {
          | exist _ false _ := (Rejected error, w3);
          | exist _ true Hleft :=
              runInTransaction fn (decrement_retry options r) None
                (before_retry options context r w3) } } } } }.
Proof.
  unfold retry_budget. rewrite Hretry. simpl.
  apply Z.ltb_lt in Hleft. lia.
Qed.

(** Lines 140-156: what [catch] does once the rollback has succeeded. *)
Definition retry_or_rethrow {T} (fn : Async T) (options : TransactionOptions)
    (context : TransactionContext) (error : Error) (w : World) : Outcome T * World :=
  match retry options with
  | Some r =>
      if (0 <? attempts r)%Z
      then runInTransaction fn (decrement_retry options r) None
             (before_retry options context r w)
      else (Rejected error, w)
  | None => (Rejected error, w)
  end.

(** [getTransactionStats()]: identifier, elapsed time and options. *)
Definition getTransactionStats (store : Store) (w : World)
    : option (string * Z * TransactionOptions) :=
  match getCurrentContext store with
  | None => None
  | Some context =>
      Some (ctx_id context, (now w - ctx_startTime context)%Z, ctx_options context)
  end.

(** ** JavaScript values, as far as option objects need them *)

Inductive JsValue :=
| JsUndefined
| JsNull
| JsBoolean (b : bool)
| JsNumber (n : Z)
| JsString (s : string)
| JsTransaction (trx : TransactionClient).   (* a transaction client object *)

(** Truthiness: [undefined], [null], [false], [0] and [""] are falsy,
    objects are truthy. *)
Definition truthy (v : JsValue) : bool :=
  match v with
  | JsUndefined | JsNull => false
  | JsBoolean b => b
  | JsNumber n => negb (n =? 0)%Z
  | JsString s => negb (String.eqb s "")
  | JsTransaction _ => true
  end.

(** [options?.client]: [undefined] when [options] is absent or has no
    such property. *)
Definition client_of (options : option (gmap string JsValue)) : JsValue :=
  match options with
  | Some o => default JsUndefined (o !! "client")
  | None => JsUndefined
  end.

(** [injectTransaction(options)], with [ModelOptions = Record<string, any>]. *)
Definition injectTransaction (options : option (gmap string JsValue)) (store : Store)
    : gmap string JsValue :=
  match getCurrentTransaction store with
  | None => default ∅ options
  | Some trx =>
      if truthy (client_of options)
      then default ∅ options
      else <["client" := JsTransaction trx]> (default ∅ options)
  end.

(** ** TransactionUtils *)

(** [conditional(condition, operation, options)]; its result has type
    [T | null], so results are JavaScript values here. *)
Definition conditional (condition : Async bool) (operation : Async JsValue)
    (options : TransactionOptions) : Async JsValue :=
  fun store w =>
    match condition store w with
    | (Rejected e, w1) => (Rejected e, w1)
    | (Resolved shouldExecute, w1) =>
        if negb shouldExecute
        then (Resolved JsNull, w1)
        else runInTransaction operation options store w1
    end.

Definition savepoint_misuse : Error :=
  mkError "Error" "withSavepoint can only be used within an existing transaction".

(** [withSavepoint(name, operation)]: [catch (error) { throw error }]
    passes a rejection on as it is. *)
Definition withSavepoint {T} (name : string) (operation : Async T) : Async T :=
  fun store w =>
    match getCurrentTransaction store with
    | None => (Rejected savepoint_misuse, w)
    | Some _ =>
        match operation store w with
        | (Rejected error, w1) => (Rejected error, w1)
        | (Resolved result, w1) => (Resolved result, w1)
        end
    end.

End Manager.

(** ** Expected call sequences *)

(** The calls of [further + 1] attempts that all end in a rollback, the
    first on transaction [first], with a timer of [ms] between two
    attempts. *)
Fixpoint retry_calls (database : Database) (level : option IsolationLevel) (ms : Z)
    (first : TransactionClient) (further : nat) : list Call :=
  CallTransaction database level :: CallRollback first ::
  match further with
  | O => []
  | S n => CallSetTimeout ms :: retry_calls database level ms (S first) n
  end.



(** ** Data layers, worlds and units of work to run the model on *)

Definition dependable : DataLayer :=
  mkDataLayer (fun _ => None) (fun _ => None) (fun _ => None).

Definition commit_refused (e : Error) : DataLayer :=
  mkDataLayer (fun _ => None) (fun _ => Some e) (fun _ => None).


Definition rollback_refused (e : Error) : DataLayer :=
  mkDataLayer (fun _ => None) (fun _ => None) (fun _ => Some e).


Definition unreachable (e : Error) : DataLayer :=
  mkDataLayer (fun _ => Some e) (fun _ => None) (fun _ => None).


Definition quiet_world : World := mkWorld 1000 0 0 [] [].

Definition error_x : Error := mkError "Error" "x".
Definition deadlock : Error := mkError "DatabaseError" "deadlock detected".
Definition connection_lost : Error := mkError "DatabaseError" "connection lost".

Definition succeed_with {T} (v : T) : Async T := fun _ w => (Resolved v, w).
Definition fail_with {T} (e : Error) : Async T := fun _ w => (Rejected e, w).

Definition retrying (n ms : Z) : TransactionOptions :=
  mkOptions None None None None (Some (mkRetry n ms)).

Definition some_context : TransactionContext :=
  mkContext 7 "trx_900_1" 900 noOptions.

(** * The facade: decorator, model mixin and sequences *)

(** [const r = await m; return k(r)]: what an [async] body does with an
    awaited call. *)
Definition await_then {A B} (m : Async A) (k : A -> Async B) : Async B :=
  fun store w =>
    match m store w with
    | (Rejected e, w1) => (Rejected e, w1)
    | (Resolved a, w1) => k a store w1
    end.

(** [async () => getTransactionStats()] *)
Definition read_stats : Async (option (string * Z * TransactionOptions)) :=
  fun store w => (Resolved (getTransactionStats store w), w).

(** The static side of a Lucid model, as far as [Transactional] overrides
    it: every method takes the optional [ModelOptions] last. *)
Record LucidModel (V R : Type) := mkLucidModel {
  query : option (gmap string JsValue) -> Async R;
  create : V -> option (gmap string JsValue) -> Async R;
  createMany : list V -> option (gmap string JsValue) -> Async R;
  updateOrCreate : V -> V -> option (gmap string JsValue) -> Async R;
  find : V -> option (gmap string JsValue) -> Async R;
  findBy : string -> V -> option (gmap string JsValue) -> Async R;
  findOrFail : V -> option (gmap string JsValue) -> Async R;
  first : option (gmap string JsValue) -> Async R;
  firstOrFail : option (gmap string JsValue) -> Async R
}.
Arguments mkLucidModel {V R}.
Arguments query {V R}.
Arguments create {V R}.
Arguments createMany {V R}.
Arguments updateOrCreate {V R}.
Arguments find {V R}.
Arguments findBy {V R}.
Arguments findOrFail {V R}.
Arguments first {V R}.
Arguments firstOrFail {V R}.

(** [superclass.method(..., injectTransaction(options))] *)
Definition injected (options : option (gmap string JsValue)) (store : Store)
    : option (gmap string JsValue) :=
  Some (injectTransaction options store).

(** [Transactional(superclass)], static methods (lines 295-337). *)
Definition Transactional {V R} (superclass : LucidModel V R) : LucidModel V R :=
  mkLucidModel
    (fun options store => query superclass (injected options store) store)
    (fun values options store => create superclass values (injected options store) store)
    (fun values options store =>
       createMany superclass values (injected options store) store)
    (fun searchPayload updatePayload options store =>
       updateOrCreate superclass searchPayload updatePayload (injected options store) store)
    (fun value options store => find superclass value (injected options store) store)
    (fun key value options store =>
       findBy superclass key value (injected options store) store)
    (fun value options store => findOrFail superclass value (injected options store) store)
    (fun options store => first superclass (injected options store) store)
    (fun options store => firstOrFail superclass (injected options store) store).

(** The loop of [TransactionUtils.sequence] (lines 401-405):
    [for (const operation of operations) results.push(await operation())]. *)
Fixpoint sequence_loop {T} (operations : list (Async T)) (results : list T)
    : Async (list T) :=
  fun store w =>
    match operations with
    | [] => (Resolved results, w)
    | operation :: rest =>
        match operation store w with
        | (Rejected e, w1) => (Rejected e, w1)
        | (Resolved r, w1) => sequence_loop rest (results ++ [r]) store w1
        end
    end.

Section Facade.

Variable layer : DataLayer.

(** The [transaction(options)] decorator (lines 193-210): the method it
    installs, given the receiver and the arguments. *)
Definition transaction {This Args T} (options : TransactionOptions)
    (method : This -> Args -> Async T) : This -> Args -> Async T :=
  fun this args => runInTransaction layer (method this args) options.

(** [TransactionUtils.sequence(operations, options)] *)
Definition sequence {T} (operations : list (Async T)) (options : TransactionOptions)
    : Async (list T) :=
  runInTransaction layer (sequence_loop operations []) options.

End Facade.

(** A unit of work that fails while bound to the first transaction and
    succeeds afterwards. *)
Definition fails_on_first (e : Error) (v : nat) : Async nat :=
  fun store w =>
    match getCurrentTransaction store with
    | Some O => (Rejected e, w)
    | _ => (Resolved v, w)
    end.

(** A model whose static methods all answer with the options they
    receive. *)
Definition echo_model : LucidModel nat (gmap string JsValue) :=
  mkLucidModel
    (fun options _ w => (Resolved (default ∅ options), w))
    (fun _ options _ w => (Resolved (default ∅ options), w))
    (fun _ options _ w => (Resolved (default ∅ options), w))
    (fun _ _ options _ w => (Resolved (default ∅ options), w))
    (fun _ options _ w => (Resolved (default ∅ options), w))
    (fun _ _ options _ w => (Resolved (default ∅ options), w))
    (fun _ options _ w => (Resolved (default ∅ options), w))
    (fun options _ w => (Resolved (default ∅ options), w))
    (fun options _ w => (Resolved (default ∅ options), w)).

(** * Properties *)

Section Properties.

Variable layer : DataLayer.

(** ** The two branches of [runInTransaction] *)

Lemma runInTransaction_reuse {T} (fn : Async T) options existingContext w :
  runInTransaction layer fn options (Some existingContext) w =
  fn (Some existingContext)
     (debug_log options
        ("[Transaction] Reusing existing transaction: " +:+ ctx_id existingContext) w).
Proof. apply runInTransaction_equation_1. Qed.

Lemma runInTransaction_open {T} (fn : Async T) options w :
  runInTransaction layer fn options None w =
  match open_context layer options w with
  | (Rejected e, w1) => (Rejected e, w1)
  | (Resolved context, w1) =>
      match try_block layer fn options context w1 with
      | (Resolved result, w2) => (Resolved result, w2)
      | (Rejected error, w2) =>
          match rollback_block layer options context w2 with
          | (Rejected e, w3) => (Rejected e, w3)
          | (Resolved _, w3) => retry_or_rethrow layer fn options context error w3
          end
      end
  end.
Proof.
  rewrite runInTransaction_equation_2.
  destruct (open_context layer options w) as [[context|e] w1];
    simp runInTransaction; [|reflexivity].
  destruct (try_block layer fn options context w1) as [[result|error] w2];
    simp runInTransaction; [reflexivity|].
  destruct (rollback_block layer options context w2) as [[[]|e] w3];
    simp runInTransaction; [|reflexivity].
  unfold retry_or_rethrow.
  destruct (inspect (retry options)) as [[r|] Hr]; simp runInTransaction.
  - destruct (inspect (0 <? attempts r)%Z) as [[|] Hleft]; simp runInTransaction;
      rewrite Hr, Hleft; simp runInTransaction; reflexivity.
  - rewrite Hr. reflexivity.
Qed.

(** ** Logging leaves everything but the console alone *)

Lemma debug_log_calls options line w : calls (debug_log options line w) = calls w.
Proof. unfold debug_log. destruct (debug options) as [[|]|]; reflexivity. Qed.

Lemma debug_log_opened options line w : opened (debug_log options line w) = opened w.
Proof. unfold debug_log. destruct (debug options) as [[|]|]; reflexivity. Qed.


Lemma debug_log_counter options line w :
  transactionCounter (debug_log options line w) = transactionCounter w.
Proof. unfold debug_log. destruct (debug options) as [[|]|]; reflexivity. Qed.

(** ** Opening *)

Lemma open_context_resolved options w context w1 :
  open_context layer options w = (Resolved context, w1) ->
  transaction_fails layer (opened w) = None /\
  ctx_transaction context = opened w /\
  ctx_options context = options /\
  opened w1 = S (opened w) /\
  calls w1 = calls w ++ [CallTransaction (select_database options) (isolationLevel options)].
Proof.
  unfold open_context, database_transaction. simpl.
  destruct (transaction_fails layer (opened w)) as [e|]; [discriminate|].
  intros H. injection H as <- <-.
  rewrite debug_log_opened, debug_log_calls. simpl. auto.
Qed.

Lemma open_context_rejected options w e :
  transaction_fails layer (opened w) = Some e ->
  exists w1,
    open_context layer options w = (Rejected e, w1) /\
    calls w1 = calls w ++ [CallTransaction (select_database options) (isolationLevel options)].
Proof.
  intros H. unfold open_context, database_transaction. simpl. rewrite H.
  eexists. split; reflexivity.
Qed.

Lemma open_context_succeeds options w :
  transaction_fails layer (opened w) = None ->
  exists context w1, open_context layer options w = (Resolved context, w1).
Proof.
  intros H. unfold open_context, database_transaction. simpl. rewrite H.
  eexists _, _. reflexivity.
Qed.

(** ** The [try] block and the rollback *)

Lemma try_block_body_failed {T} (fn : Async T) options context w1 error w2 :
  fn (Some context) w1 = (Rejected error, w2) ->
  try_block layer fn options context w1 = (Rejected error, w2).
Proof. intros H. unfold try_block, storage_run. rewrite H. reflexivity. Qed.

Lemma try_block_committed {T} (fn : Async T) options context w1 result w2 :
  fn (Some context) w1 = (Resolved result, w2) ->
  commit_fails layer (ctx_transaction context) = None ->
  exists w3,
    try_block layer fn options context w1 = (Resolved result, w3) /\
    opened w3 = opened w2 /\
    calls w3 = calls w2 ++ [CallCommit (ctx_transaction context)].
Proof.
  intros H Hcommit. unfold try_block, storage_run, trx_commit. rewrite H, Hcommit.
  eexists. split; [reflexivity|].
  rewrite debug_log_opened, debug_log_calls. split; reflexivity.
Qed.


Lemma rollback_block_calls options context w :
  calls (snd (rollback_block layer options context w)) =
  calls w ++ [CallRollback (ctx_transaction context)].
Proof.
  unfold rollback_block, trx_rollback.
  destruct (rollback_fails layer (ctx_transaction context)); simpl;
    [|rewrite debug_log_calls]; reflexivity.
Qed.

Lemma rollback_block_resolved options context w :
  rollback_fails layer (ctx_transaction context) = None ->
  exists w1,
    rollback_block layer options context w = (Resolved tt, w1) /\
    opened w1 = opened w /\
    calls w1 = calls w ++ [CallRollback (ctx_transaction context)].
Proof.
  intros H. unfold rollback_block, trx_rollback. rewrite H.
  eexists. split; [reflexivity|].
  rewrite debug_log_opened, debug_log_calls. split; reflexivity.
Qed.

Lemma rollback_block_rejected options context w e :
  rollback_fails layer (ctx_transaction context) = Some e ->
  rollback_block layer options context w =
  (Rejected e, record_call (CallRollback (ctx_transaction context)) w).
Proof. intros H. unfold rollback_block, trx_rollback. rewrite H. reflexivity. Qed.

(** A failure caught by [catch] when no retry is configured: one
    rollback, then the failure is thrown again unless the rollback itself
    fails. *)
Lemma caught_without_retry {T} (fn : Async T) options w context w1 error w2 :
  retry options = None ->
  open_context layer options w = (Resolved context, w1) ->
  try_block layer fn options context w1 = (Rejected error, w2) ->
  calls (snd (runInTransaction layer fn options None w)) =
    calls w2 ++ [CallRollback (ctx_transaction context)] /\
  (rollback_fails layer (ctx_transaction context) = None ->
   fst (runInTransaction layer fn options None w) = Rejected error).
Proof.
  intros Hretry Hopen Htry.
  rewrite runInTransaction_open, Hopen, Htry.
  pose proof (rollback_block_calls options context w2) as Hcalls.
  destruct (rollback_block layer options context w2) as [[[]|e] w3] eqn:Hrb.
  - unfold retry_or_rethrow. rewrite Hretry. simpl in *. split; [exact Hcalls|reflexivity].
  - simpl in *. split; [exact Hcalls|].
    intros Hok. destruct (rollback_block_resolved options context w2 Hok) as (w4 & Heq & _).
    congruence.
Qed.

(** A unit of work that succeeds in the open branch, followed by a commit
    that succeeds. *)
Lemma committed_run {T} (fn : Async T) options w context w1 result w2 :
  open_context layer options w = (Resolved context, w1) ->
  fn (Some context) w1 = (Resolved result, w2) ->
  commit_fails layer (ctx_transaction context) = None ->
  exists w3,
    runInTransaction layer fn options None w = (Resolved result, w3) /\
    calls w3 = calls w2 ++ [CallCommit (ctx_transaction context)].
Proof.
  intros Hopen Hfn Hcommit.
  destruct (try_block_committed fn options context w1 result w2 Hfn Hcommit)
    as (w3 & Htry & _ & Hcalls).
  exists w3. rewrite runInTransaction_open, Hopen, Htry. auto.
Qed.

(** ** Nested calls *)

(** C1, as amended.  A call made while a record is current opens no
    transaction and issues no commit or rollback: it is its unit of work,
    run directly on a world that differs at most by one console line, and
    its own options play no part.  So a nested call adds nothing to the
    calls of the outermost call; and an outermost call with no retry
    configured whose transaction opens issues, around the calls of the
    unit of work itself, exactly one [transaction()] call and then exactly
    one commit (when the unit of work succeeds and the commit does not
    fail) or exactly one rollback (when the unit of work fails). *)
Theorem nested_call_reuses_transaction {T} (inner : Async T)
    (nested outer : TransactionOptions) (w : World)
    (context : TransactionContext) (w1 : World) :
  let reusing existing :=
    debug_log nested ("[Transaction] Reusing existing transaction: " +:+ ctx_id existing) in
  let unit_of_work := runInTransaction layer inner nested in
  retry outer = None ->
  open_context layer outer w = (Resolved context, w1) ->
  (forall existing w0,
     unit_of_work (Some existing) w0 = inner (Some existing) (reusing existing w0) /\
     calls (reusing existing w0) = calls w0 /\
     opened (reusing existing w0) = opened w0) /\
  calls w1 = calls w ++ [CallTransaction (select_database outer) (isolationLevel outer)] /\
  match inner (Some context) (reusing context w1) with
  | (Resolved result, w2) =>
      commit_fails layer (ctx_transaction context) = None ->
      exists w3,
        runInTransaction layer unit_of_work outer None w = (Resolved result, w3) /\
        calls w3 = calls w2 ++ [CallCommit (ctx_transaction context)]
  | (Rejected error, w2) =>
      calls (snd (runInTransaction layer unit_of_work outer None w)) =
        calls w2 ++ [CallRollback (ctx_transaction context)] /\
      (rollback_fails layer (ctx_transaction context) = None ->
       fst (runInTransaction layer unit_of_work outer None w) = Rejected error)
  end.
Proof.
  intros reusing unit_of_work Hretry Hopen.
  assert (Hreuse : forall existing w0,
            unit_of_work (Some existing) w0 = inner (Some existing) (reusing existing w0))
    by (intros; apply runInTransaction_reuse).
  split; [|split].
  - intros existing w0. split; [apply Hreuse|].
    unfold reusing. rewrite debug_log_calls, debug_log_opened. auto.
  - apply (open_context_resolved _ _ _ _ Hopen).
  - specialize (Hreuse context w1).
    destruct (inner (Some context) (reusing context w1)) as [[result|error] w2].
    + intros Hcommit. exact (committed_run unit_of_work outer w context w1 result w2 Hopen Hreuse Hcommit).
    + apply caught_without_retry with (w1 := w1); try assumption.
      apply try_block_body_failed. exact Hreuse.
Qed.

(** ** Commit, rollback and failures at the top level *)

(** C2, as amended.  In a call made while no record is current, once the
    transaction is open and the unit of work has succeeded, and provided
    the commit itself succeeds: the call returns the result of the unit
    of work, the only call made before the unit of work is the
    [transaction()] call, and the only call made after it is one commit
    of the transaction that was opened, so no rollback is issued. *)
Theorem success_commits_once {T} (fn : Async T) (options : TransactionOptions)
    (w : World) (context : TransactionContext) (w1 : World) (result : T) (w2 : World) :
  open_context layer options w = (Resolved context, w1) ->
  fn (Some context) w1 = (Resolved result, w2) ->
  commit_fails layer (ctx_transaction context) = None ->
  exists w3,
    runInTransaction layer fn options None w = (Resolved result, w3) /\
    calls w1 = calls w ++ [CallTransaction (select_database options) (isolationLevel options)] /\
    calls w3 = calls w2 ++ [CallCommit (ctx_transaction context)].
Proof.
  intros Hopen Hfn Hcommit.
  destruct (committed_run fn options w context w1 result w2 Hopen Hfn Hcommit)
    as (w3 & Hrun & Hcalls).
  exists w3. repeat split; try assumption.
  apply (open_context_resolved _ _ _ _ Hopen).
Qed.

(** C3, as amended.  In a call made while no record is current and with
    no retry configured, once the transaction is open and the unit of
    work has failed, the only call made after the unit of work is one
    rollback of the transaction that was opened; and provided that
    rollback itself succeeds, the call fails with the very failure of the
    unit of work. *)
Theorem failure_rolls_back_once {T} (fn : Async T) (options : TransactionOptions)
    (w : World) (context : TransactionContext) (w1 : World) (error : Error) (w2 : World) :
  retry options = None ->
  open_context layer options w = (Resolved context, w1) ->
  fn (Some context) w1 = (Rejected error, w2) ->
  calls (snd (runInTransaction layer fn options None w)) =
    calls w2 ++ [CallRollback (ctx_transaction context)] /\
  (rollback_fails layer (ctx_transaction context) = None ->
   fst (runInTransaction layer fn options None w) = Rejected error).
Proof.
  intros Hretry Hopen Hfn.
  apply caught_without_retry with (w1 := w1); try assumption.
  apply try_block_body_failed. exact Hfn.
Qed.


(** C6, as amended.  When the data layer fails to open the transaction
    in a call made while no record is current, the call fails with that
    failure whatever the options, a configured retry included, in the
    world the failed opening left: the unit of work is not run and the
    [transaction()] call is the only call made, so there is no rollback,
    no wait and no second attempt. *)
Theorem open_failure_surfaces {T} (fn : Async T) (options : TransactionOptions)
    (w : World) (e : Error) :
  transaction_fails layer (opened w) = Some e ->
  exists w1,
    open_context layer options w = (Rejected e, w1) /\
    runInTransaction layer fn options None w = (Rejected e, w1) /\
    calls w1 = calls w ++ [CallTransaction (select_database options) (isolationLevel options)].
Proof.
  intros Hfails.
  destruct (open_context_rejected options w e Hfails) as (w1 & Hopen & Hcalls).
  exists w1. rewrite runInTransaction_open, Hopen. auto.
Qed.

(** ** Retry *)

Lemma before_retry_calls options context r w :
  calls (before_retry options context r w) = calls w ++ [CallSetTimeout (delay r)].
Proof. unfold before_retry, sleep. simpl. rewrite debug_log_calls. reflexivity. Qed.

Lemma before_retry_opened options context r w :
  opened (before_retry options context r w) = opened w.
Proof. unfold before_retry, sleep. simpl. apply debug_log_opened. Qed.



(** One attempt of the open branch on a unit of work that always fails,
    with a data layer that grants the transaction and the rollback: what
    remains of the call is the decision to retry or to throw again. *)
Lemma one_failed_attempt {T} (fn : Async T) (options : TransactionOptions) (w : World) :
  transaction_fails layer (opened w) = None ->
  (forall trx, rollback_fails layer trx = None) ->
  (forall store w0, exists e, fst (fn store w0) = Rejected e) ->
  exists context w1 e w2 w3,
    (ctx_transaction context = opened w /\
     ctx_options context = options /\
     opened w1 = S (opened w) /\
     calls w1 = calls w ++ [CallTransaction (select_database options)
                              (isolationLevel options)]) /\
    fn (Some context) w1 = (Rejected e, w2) /\
    (opened w3 = opened w2 /\
     calls w3 = calls w2 ++ [CallRollback (ctx_transaction context)]) /\
    runInTransaction layer fn options None w =
      retry_or_rethrow layer fn options context e w3 /\
    open_context layer options w = (Resolved context, w1) /\
    rollback_block layer options context w2 = (Resolved tt, w3).
Proof.
  intros Hopens Hrollbacks Hfails.
  destruct (open_context_succeeds options w Hopens) as (context & w1 & Hopen).
  destruct (open_context_resolved _ _ _ _ Hopen) as (_ & Hopened).
  destruct (Hfails (Some context) w1) as (e & He).
  destruct (fn (Some context) w1) as [[v|e0] w2] eqn:Hfn; simpl in He;
    [discriminate|]; injection He as ->.
  pose proof (try_block_body_failed fn options context w1 e w2 Hfn) as Htry.
  destruct (rollback_block_resolved options context w2 (Hrollbacks _))
    as (w3 & Hrb & Hrolled).
  exists context, w1, e, w2, w3.
  rewrite runInTransaction_open, Hopen, Htry, Hrb. auto 10.
Qed.

(** With a unit of work that makes no data-layer or timer call of its
    own, the calls of a run that exhausts its retry budget are exactly
    those of [retry_calls]: [N + 1] transactions requested, obtained and
    rolled back in turn, a timer of [D] milliseconds before each but the
    first. *)
Lemma retry_calls_of_quiet_unit {T} (fn : Async T) (options : TransactionOptions)
    (N D : Z) (w : World) :
  retry options = Some (mkRetry N D) ->
  (0 <= N)%Z ->
  (forall rank, transaction_fails layer rank = None) ->
  (forall trx, rollback_fails layer trx = None) ->
  (forall store w0, exists e, fst (fn store w0) = Rejected e) ->
  (forall store w0,
     calls (snd (fn store w0)) = calls w0 /\ opened (snd (fn store w0)) = opened w0) ->
  exists e w' context w_in,
    runInTransaction layer fn options None w = (Rejected e, w') /\
    calls w' =
      calls w ++ retry_calls (select_database options) (isolationLevel options) D
                   (opened w) (Z.to_nat N) /\
    ctx_transaction context = opened w + Z.to_nat N /\
    retry (ctx_options context) = Some (mkRetry 0 D) /\
    fst (fn (Some context) w_in) = Rejected e.
Proof.
  intros Hretry HN Hopens Hrollbacks Hfails Hquiet.
  remember (Z.to_nat N) as n eqn:Hn.
  revert options N w Hretry HN Hn.
  induction n as [|n IH]; intros options N w Hretry HN Hn.
  all: destruct (one_failed_attempt fn options w (Hopens _) Hrollbacks Hfails)
         as (context & w1 & e & w2 & w3
             & (Htrx & Hoptions & Hopened1 & Hcalls1) & Hfn
             & (Hopened3 & Hcalls3) & -> & Hopen & Hrb).
  all: destruct (Hquiet (Some context) w1) as (Hcalls2 & Hopened2).
  all: rewrite Hfn in Hcalls2, Hopened2; simpl in Hcalls2, Hopened2.
  all: unfold retry_or_rethrow; rewrite Hretry; simpl attempts.
  - assert (N = 0%Z) as -> by lia. simpl.
    exists e, w3, context, w1. repeat split.
    + rewrite Hcalls3, Hcalls2, Hcalls1, Htrx, <- app_assoc. reflexivity.
    + lia.
    + rewrite Hoptions. exact Hretry.
    + rewrite Hfn. reflexivity.
  - assert (Hleft : (0 <? N)%Z = true) by (apply Z.ltb_lt; lia).
    rewrite Hleft.
    set (r := mkRetry N D).
    destruct (IH (decrement_retry options r) (N - 1)%Z (before_retry options context r w3))
      as (e' & w' & context' & w_in & Hrun & Hcalls & Htrx' & Hbudget & Hlast);
      [reflexivity|lia|lia|].
    exists e', w', context', w_in. repeat split; try assumption.
    + rewrite Hcalls, before_retry_calls, before_retry_opened.
      rewrite Hcalls3, Hcalls2, Hcalls1, Hopened3, Hopened2, Hopened1, Htrx.
      simpl. rewrite <- !app_assoc. reflexivity.
    + rewrite Htrx', before_retry_opened, Hopened3, Hopened2, Hopened1. lia.
Qed.


(** ** Option injection *)

(** C7.  [injectTransaction] never overwrites a transaction handle that
    the options it is given already carry in their [client] field, and
    when no transaction is current it returns the options unchanged; in
    both cases absent options come back as the empty object. *)
Theorem injectTransaction_respects_caller (options : option (gmap string JsValue))
    (store : Store) :
  (exists o handle, options = Some o /\ o !! "client" = Some (JsTransaction handle)) \/
  getCurrentTransaction store = None ->
  injectTransaction options store = default ∅ options.
Proof.
  intros [(o & handle & -> & Hclient)|Hnone]; unfold injectTransaction.
  - destruct (getCurrentTransaction store); [|reflexivity].
    simpl. rewrite Hclient. reflexivity.
  - rewrite Hnone. reflexivity.
Qed.

(** C10.  Whether a handle was supplied is decided by the truthiness of
    the [client] field, not by its presence: when a transaction is
    current and the options carry a [client] field whose value is falsy
    ([null], [undefined], [false], ...), the result is the options with
    that field replaced by the handle of the current transaction. *)
Theorem injectTransaction_overwrites_falsy_client (o : gmap string JsValue)
    (v : JsValue) (context : TransactionContext) :
  o !! "client" = Some v ->
  truthy v = false ->
  injectTransaction (Some o) (Some context) =
    <["client" := JsTransaction (ctx_transaction context)]> o /\
  injectTransaction (Some o) (Some context) !! "client" =
    Some (JsTransaction (ctx_transaction context)) /\
  v <> JsTransaction (ctx_transaction context).
Proof.
  intros Hclient Hfalsy.
  assert (Hinject : injectTransaction (Some o) (Some context) =
                    <["client" := JsTransaction (ctx_transaction context)]> o).
  { unfold injectTransaction. simpl. rewrite Hclient. simpl. rewrite Hfalsy. reflexivity. }
  split; [exact Hinject|split].
  - rewrite Hinject. apply lookup_insert_eq.
  - intros ->. discriminate.
Qed.

(** ** TransactionUtils *)

(** C8, as amended.  When the predicate evaluates to [false],
    [conditional] settles with [null] in the very world the predicate
    left: whatever the operation is, it is not invoked and no
    transaction is opened.  [null] differs from every value of the
    operation that is not itself [null]. *)
Theorem conditional_skips (condition : Async bool) (operation : Async JsValue)
    (options : TransactionOptions) (store : Store) (w w1 : World) :
  condition store w = (Resolved false, w1) ->
  conditional layer condition operation options store w = (Resolved JsNull, w1) /\
  forall v : JsValue,
    v <> JsNull ->
    fst (conditional layer condition operation options store w) <> Resolved v.
Proof.
  intros Hcondition.
  assert (Hskip : conditional layer condition operation options store w =
                  (Resolved JsNull, w1))
    by (unfold conditional; rewrite Hcondition; reflexivity).
  split; [exact Hskip|].
  intros v Hv. rewrite Hskip. simpl. intros Heq. injection Heq as <-.
  apply Hv. reflexivity.
Qed.

(** C9.  Called while no transaction is current, [withSavepoint] fails
    with its own error, the one whose message says that it can only be
    used within an existing transaction, and leaves the world as it
    found it: whatever the operation is, it is not invoked. *)
Theorem withSavepoint_requires_transaction {T} (name : string) (operation : Async T)
    (store : Store) (w : World) :
  getCurrentTransaction store = None ->
  withSavepoint name operation store w = (Rejected savepoint_misuse, w) /\
  err_message savepoint_misuse =
    "withSavepoint can only be used within an existing transaction".
Proof.
  intros Hnone. unfold withSavepoint. rewrite Hnone. split; reflexivity.
Qed.

End Properties.

(** * The properties at work on concrete runs *)

(** The scenario of the specification: a unit of work that throws
    [Error('x')], run with [retry: { attempts: 1, delay: 0 }], opens two
    transactions, rolls both back and rejects with [Error('x')]; the
    timer of 0 milliseconds takes 1. *)
Example retry_scenario :
  runInTransaction dependable (@fail_with nat error_x) (retrying 1 0) None quiet_world =
    (Rejected error_x,
     mkWorld 1001 2 2
       (retry_calls DefaultConnection None 0 0 1) []).
Proof. vm_compute. reflexivity. Qed.

(** With [debug] set, every phase writes its line. *)
Example debug_scenario :
  console (snd (runInTransaction dependable (@fail_with nat error_x)
                  (mkOptions None None (Some true) None (Some (mkRetry 1 0)))
                  None quiet_world)) =
    ["[Transaction] Starting transaction: trx_1000_1";
     "[Transaction] Rolled back transaction: trx_1000_1 (0ms)";
     "[Transaction] Retrying transaction: trx_1000_1 (1 attempts left)";
     "[Transaction] Starting transaction: trx_1001_2";
     "[Transaction] Rolled back transaction: trx_1001_2 (0ms)"].
Proof. vm_compute. reflexivity. Qed.

(** ** C1 *)

Lemma nested_call_reuses_transaction_witness :
  exists w3,
    runInTransaction dependable
      (runInTransaction dependable (succeed_with 5) (retrying 3 0))
      noOptions None quiet_world = (Resolved 5, w3) /\
    calls w3 = [CallTransaction DefaultConnection None; CallCommit 0].
Proof.
  destruct (nested_call_reuses_transaction dependable (succeed_with 5) (retrying 3 0)
              noOptions quiet_world _ _ eq_refl eq_refl) as (_ & _ & Houter).
  exact (Houter eq_refl).
Defined.

(** One outermost call whose unit of work is a nested call: with a retry
    configured on the outermost call and a unit of work that fails, two
    transactions are opened and two rollbacks issued; with a commit that
    fails, the one transaction receives a commit and then a rollback. *)
Lemma nested_call_counterexample :
  calls (snd (runInTransaction dependable
                (runInTransaction dependable (@fail_with nat error_x) noOptions)
                (retrying 1 0) None quiet_world)) =
    [CallTransaction DefaultConnection None; CallRollback 0; CallSetTimeout 0;
     CallTransaction DefaultConnection None; CallRollback 1] /\
  calls (snd (runInTransaction (commit_refused deadlock)
                (runInTransaction (commit_refused deadlock) (succeed_with 5) noOptions)
                noOptions None quiet_world)) =
    [CallTransaction DefaultConnection None; CallCommit 0; CallRollback 0].
Proof. split; vm_compute; reflexivity. Qed.

(** ** C2 *)

Lemma success_commits_once_witness :
  exists w3,
    runInTransaction dependable (succeed_with 3) noOptions None quiet_world =
      (Resolved 3, w3) /\
    calls w3 = [CallTransaction DefaultConnection None; CallCommit 0].
Proof.
  destruct (success_commits_once dependable (succeed_with 3) noOptions quiet_world
              _ _ 3 _ eq_refl eq_refl eq_refl) as (w3 & Hrun & _ & Hcalls).
  exists w3. split; [exact Hrun|exact Hcalls].
Defined.

(** The unit of work succeeds and the commit is refused: the transaction
    is rolled back and the caller receives the failure of the commit,
    not the result of the unit of work. *)
Lemma success_commits_once_counterexample :
  runInTransaction (commit_refused deadlock) (succeed_with 3) noOptions None quiet_world =
    (Rejected deadlock,
     mkWorld 1000 1 1
       [CallTransaction DefaultConnection None; CallCommit 0; CallRollback 0] []).
Proof. vm_compute. reflexivity. Qed.

(** ** C3 *)

Lemma failure_rolls_back_once_witness :
  calls (snd (runInTransaction dependable (@fail_with nat error_x) noOptions None
                quiet_world)) =
    [CallTransaction DefaultConnection None; CallRollback 0] /\
  fst (runInTransaction dependable (@fail_with nat error_x) noOptions None quiet_world) =
    Rejected error_x.
Proof.
  destruct (failure_rolls_back_once dependable (@fail_with nat error_x) noOptions
              quiet_world _ _ error_x _ eq_refl eq_refl eq_refl) as (Hcalls & Hrethrown).
  split; [exact Hcalls|exact (Hrethrown eq_refl)].
Defined.

(** The unit of work fails with [error_x] and the rollback is refused:
    the caller receives the failure of the rollback, and [error_x] is
    lost. *)
Lemma failure_rolls_back_once_counterexample :
  runInTransaction (rollback_refused connection_lost) (@fail_with nat error_x)
    noOptions None quiet_world =
    (Rejected connection_lost,
     mkWorld 1000 1 1 [CallTransaction DefaultConnection None; CallRollback 0] []) /\
  connection_lost <> error_x.
Proof. split; [vm_compute; reflexivity|discriminate]. Qed.

(** ** C4 *)



(** ** C5 *)



(** ** C6 *)

Lemma open_failure_surfaces_witness :
  exists w1,
    runInTransaction (unreachable connection_lost) (succeed_with 3) (retrying 3 0)
      None quiet_world = (Rejected connection_lost, w1) /\
    calls w1 = [CallTransaction DefaultConnection None].
Proof.
  destruct (open_failure_surfaces (unreachable connection_lost) (succeed_with 3)
              (retrying 3 0) quiet_world connection_lost eq_refl)
    as (w1 & _ & Hrun & Hcalls).
  exists w1. split; [exact Hrun|exact Hcalls].
Defined.

(** Three retries are configured and the data layer cannot open the
    transaction: the call fails at once, after a single [transaction()]
    call, no wait and no second attempt. *)
Lemma open_failure_surfaces_counterexample :
  runInTransaction (unreachable connection_lost) (succeed_with 3) (retrying 3 0)
    None quiet_world =
    (Rejected connection_lost,
     mkWorld 1000 1 1 [CallTransaction DefaultConnection None] []).
Proof. vm_compute. reflexivity. Qed.

(** ** C7 and C10 *)

Lemma injectTransaction_respects_caller_witness :
  injectTransaction (Some {["client" := JsTransaction 9]}) (Some some_context) =
    {["client" := JsTransaction 9]} /\
  injectTransaction None None = ∅.
Proof.
  split.
  - refine (injectTransaction_respects_caller
              (Some {["client" := JsTransaction 9]}) (Some some_context) _).
    left. exists {["client" := JsTransaction 9]}, 9. split; reflexivity.
  - refine (injectTransaction_respects_caller None None _). right. reflexivity.
Defined.

Lemma injectTransaction_overwrites_falsy_client_witness :
  injectTransaction (Some {["client" := JsNull]}) (Some some_context) !! "client" =
    Some (JsTransaction 7).
Proof.
  apply (injectTransaction_overwrites_falsy_client {["client" := JsNull]} JsNull
           some_context); reflexivity.
Defined.

(** ** C8 *)

Lemma conditional_skips_witness :
  conditional dependable (succeed_with false) (succeed_with (JsNumber 1)) noOptions
    None quiet_world = (Resolved JsNull, quiet_world).
Proof.
  apply (conditional_skips dependable (succeed_with false) (succeed_with (JsNumber 1))
           noOptions None quiet_world quiet_world).
  reflexivity.
Defined.

(** An operation that settles with [null], as a lookup that finds
    nothing does: the result of running it is the result of skipping
    it. *)
Lemma conditional_skips_counterexample :
  fst (conditional dependable (succeed_with true) (succeed_with JsNull) noOptions
         None quiet_world) = Resolved JsNull /\
  fst (conditional dependable (succeed_with false) (succeed_with JsNull) noOptions
         None quiet_world) = Resolved JsNull.
Proof. split; vm_compute; reflexivity. Qed.

(** ** C9 *)

Lemma withSavepoint_requires_transaction_witness :
  withSavepoint "checkpoint" (succeed_with 3) None quiet_world =
    (Rejected savepoint_misuse, quiet_world).
Proof.
  apply (withSavepoint_requires_transaction "checkpoint" (succeed_with 3) None quiet_world).
  reflexivity.
Defined.

(** * Further properties of the manager and of the facade *)

Section Composition.

Variable layer : DataLayer.

Lemma debug_log_off options line w :
  debug options <> Some true -> debug_log options line w = w.
Proof. unfold debug_log. destruct (debug options) as [[|]|]; congruence. Qed.

Lemma try_block_ext {T} (fn fn' : Async T) options context w :
  (forall c w0, fn (Some c) w0 = fn' (Some c) w0) ->
  try_block layer fn options context w = try_block layer fn' options context w.
Proof. intros Hsame. unfold try_block, storage_run. rewrite Hsame. reflexivity. Qed.

Lemma decrement_retry_budget options r :
  retry options = Some r ->
  (0 <? attempts r)%Z = true ->
  retry_budget (decrement_retry options r) < retry_budget options.
Proof.
  intros Hretry Hleft. apply Z.ltb_lt in Hleft.
  unfold retry_budget. rewrite Hretry. simpl. lia.
Qed.

Lemma runInTransaction_ext {T} (fn fn' : Async T) (options : TransactionOptions)
    (store : Store) (w : World) :
  (forall context w0, fn (Some context) w0 = fn' (Some context) w0) ->
  runInTransaction layer fn options store w = runInTransaction layer fn' options store w.
Proof.
  intros Hsame. destruct store as [existing|].
  - rewrite !runInTransaction_reuse. apply Hsame.
  - remember (retry_budget options) as n eqn:Hn.
    revert options w Hn.
    induction n as [n IH] using (well_founded_induction lt_wf).
    intros options w Hn.
    rewrite !runInTransaction_open.
    destruct (open_context layer options w) as [[context|e] w1]; [|reflexivity].
    rewrite (try_block_ext fn fn' options context w1 Hsame).
    destruct (try_block layer fn' options context w1) as [[result|error] w2];
      [reflexivity|].
    destruct (rollback_block layer options context w2) as [[[]|e] w3]; [|reflexivity].
    unfold retry_or_rethrow.
    destruct (retry options) as [r|] eqn:Hretry; [|reflexivity].
    destruct (0 <? attempts r)%Z eqn:Hleft; [|reflexivity].
    apply (IH (retry_budget (decrement_retry options r))); [|reflexivity].
    subst n. apply decrement_retry_budget; assumption.
Qed.

(** X1.  The unit of work is only ever run while a record is current,
    whether the call reuses one or opens its own, at the first attempt
    and at every retry: two units of work that behave alike whenever a
    record is current give the same call, whatever they do without
    one. *)
Theorem unit_of_work_runs_bound {T} (fn fn' : Async T) (options : TransactionOptions)
    (store : Store) (w : World) :
  (forall context w0, fn (Some context) w0 = fn' (Some context) w0) ->
  runInTransaction layer fn options store w = runInTransaction layer fn' options store w.
Proof.
  intros Hsame. destruct store as [existing|].
  - rewrite !runInTransaction_reuse. apply Hsame.
  - apply runInTransaction_ext. exact Hsame.
Qed.

Lemma nested_call_is_its_unit {T} (inner : Async T) nested context w :
  debug nested <> Some true ->
  runInTransaction layer inner nested (Some context) w = inner (Some context) w.
Proof. intros Hquiet. rewrite runInTransaction_reuse, debug_log_off; auto. Qed.

(** X2.  Nesting is transparent: wrapping the unit of work of a call in
    a second [runInTransaction], whose options do not ask for debug
    lines, changes neither the outcome nor any effect of the call,
    retries included; the options of the inner call, its retry budget
    among them, are ignored. *)
Theorem nesting_is_transparent {T} (inner : Async T) (nested outer : TransactionOptions)
    (store : Store) (w : World) :
  debug nested <> Some true ->
  runInTransaction layer (runInTransaction layer inner nested) outer store w =
  runInTransaction layer inner outer store w.
Proof.
  intros Hquiet. apply runInTransaction_ext.
  intros context w0. apply nested_call_is_its_unit. exact Hquiet.
Qed.

(** Awaiting one call and going on with another keeps two bodies alike
    while a record is current, when their parts are. *)
Lemma await_then_bound {A B} (m m' : Async A) (k k' : A -> Async B) context w :
  (forall c w0, m (Some c) w0 = m' (Some c) w0) ->
  (forall a c w0, k a (Some c) w0 = k' a (Some c) w0) ->
  await_then m k (Some context) w = await_then m' k' (Some context) w.
Proof.
  intros Hm Hk. unfold await_then. rewrite Hm.
  destruct (m' (Some context) w) as [[a|e] w1]; [apply Hk|reflexivity].
Qed.

(** X3.  Take the body of a method, written over a method [m] that it
    calls, at any point and any number of times, on its own execution
    path: while a record is current the body depends on [m] only
    through what [m] does while a record is current.  Decorate the
    method.  Whether the method it calls is decorated too or not then
    makes no difference: all run in the one transaction of the outer
    method, and the options given to the inner decorator play no part
    (debug lines apart). *)
Theorem decorated_methods_share_transaction {This Args This' Args' A B}
    (options inner_options : TransactionOptions)
    (callee : This' -> Args' -> Async A)
    (body : (This' -> Args' -> Async A) -> This -> Args -> Async B)
    (this : This) (args : Args) (store : Store) (w : World) :
  debug inner_options <> Some true ->
  (forall m m' : This' -> Args' -> Async A,
     (forall this' args' context w0,
        m this' args' (Some context) w0 = m' this' args' (Some context) w0) ->
     forall this0 args0 context w0,
       body m this0 args0 (Some context) w0 = body m' this0 args0 (Some context) w0) ->
  transaction layer options (body (transaction layer inner_options callee))
    this args store w =
  transaction layer options (body callee) this args store w.
Proof.
  intros Hquiet Hbody. unfold transaction at 1 3. apply runInTransaction_ext.
  intros context w0. apply Hbody.
  intros this' args' context' w1. unfold transaction.
  apply nested_call_is_its_unit. exact Hquiet.
Qed.

(** X4.  [withSavepoint] creates no savepoint: as the unit of work of
    [runInTransaction], or anywhere a record is current, it is the
    operation itself, so a failure inside it is a failure of the whole
    unit of work and rolls the whole transaction back. *)
Theorem withSavepoint_is_transparent {T} (name : string) (operation : Async T)
    (options : TransactionOptions) (store : Store) (w : World) :
  (forall context w0,
     withSavepoint name operation (Some context) w0 = operation (Some context) w0) /\
  runInTransaction layer (withSavepoint name operation) options store w =
  runInTransaction layer operation options store w.
Proof.
  assert (Hsame : forall context w0,
            withSavepoint name operation (Some context) w0 = operation (Some context) w0).
  { intros context w0. unfold withSavepoint. simpl.
    destruct (operation (Some context) w0) as [[result|error] w1]; reflexivity. }
  split; [exact Hsame|].
  apply runInTransaction_ext. exact Hsame.
Qed.

(** X5.  Inside a nested call, [getTransactionStats] reports the
    identifier and the options of the outermost call, the one that
    opened the transaction, not the options of the nested call. *)
Theorem stats_report_outermost_call (nested outer : TransactionOptions) (w : World)
    (context : TransactionContext) (w1 : World) :
  open_context layer outer w = (Resolved context, w1) ->
  commit_fails layer (ctx_transaction context) = None ->
  exists duration,
    fst (runInTransaction layer (runInTransaction layer read_stats nested) outer None w) =
    Resolved (Some (ctx_id context, duration, outer)).
Proof.
  intros Hopen Hcommit.
  destruct (open_context_resolved layer _ _ _ _ Hopen) as (_ & _ & Hoptions & _).
  set (w1' := debug_log nested
                ("[Transaction] Reusing existing transaction: " +:+ ctx_id context) w1).
  exists (now w1' - ctx_startTime context)%Z.
  destruct (committed_run layer (runInTransaction layer read_stats nested) outer w
              context w1
              (Some (ctx_id context, (now w1' - ctx_startTime context)%Z, outer)) w1')
    as (w3 & Hrun & _).
  - exact Hopen.
  - rewrite runInTransaction_reuse. unfold read_stats, getTransactionStats. simpl.
    rewrite Hoptions. reflexivity.
  - exact Hcommit.
  - rewrite Hrun. reflexivity.
Qed.

End Composition.

(** ** Transaction identifiers *)

Section Identifiers.

(** A string [s] has no underscore when it is no [a ++ "_" ++ b]. *)
Lemma underscore_free_cons c s :
  c <> "_"%char ->
  (forall a b, s <> a +:+ String "_" b) ->
  forall a b, String c s <> a +:+ String "_" b.
Proof.
  intros Hc Hs [|c' a] b; simpl; intros Heq; injection Heq as Hhead Htail.
  - congruence.
  - exact (Hs a b Htail).
Qed.

Lemma underscore_free_empty a b : "" <> a +:+ String "_" b.
Proof. destruct a; discriminate. Qed.

Lemma pretty_N_go_underscore_free x s :
  (forall a b, s <> a +:+ String "_" b) ->
  forall a b, pretty_N_go x s <> a +:+ String "_" b.
Proof.
  revert s. induction (N.lt_wf_0 x) as [x _ IH]; intros s Hs.
  assert (x = 0 \/ 0 < x)%N as [->|Hpos] by lia.
  - rewrite pretty_N_go_0. exact Hs.
  - rewrite pretty_N_go_step by exact Hpos. apply IH.
    + apply N.div_lt; lia.
    + apply underscore_free_cons; [|exact Hs].
      unfold pretty_N_char. repeat case_match; discriminate.
Qed.

Lemma pretty_Z_underscore_free (z : Z) a b : pretty z <> a +:+ String "_" b.
Proof.
  assert (HN : forall n : N, forall a b, pretty n <> a +:+ String "_" b).
  { intros n. unfold pretty, pretty_N. case_decide.
    - apply underscore_free_cons; [discriminate|apply underscore_free_empty].
    - apply pretty_N_go_underscore_free, underscore_free_empty. }
  destruct z as [|p|p]; unfold pretty, pretty_Z.
  - apply underscore_free_cons; [discriminate|apply underscore_free_empty].
  - apply HN.
  - apply (underscore_free_cons "-"); [discriminate|apply HN].
Qed.

Lemma split_at_underscore a a' b b' :
  (forall x y, a <> x +:+ String "_" y) ->
  (forall x y, a' <> x +:+ String "_" y) ->
  a +:+ String "_" b = a' +:+ String "_" b' ->
  a = a' /\ b = b'.
Proof.
  revert a'. induction a as [|c a IH]; intros [|c' a'] Ha Ha'; simpl; intros Heq.
  - injection Heq as ->. auto.
  - injection Heq as <- _. destruct (Ha' "" a'). reflexivity.
  - injection Heq as -> _. destruct (Ha "" a). reflexivity.
  - injection Heq as -> Htail.
    destruct (IH a') as [-> ->]; auto.
    + intros x y ->. exact (Ha (String c' x) y eq_refl).
    + intros x y ->. exact (Ha' (String c' x) y eq_refl).
Qed.

Lemma generateTransactionId_inj (w w' : World) :
  (transactionCounter w < 9007199254740992)%Z ->
  (transactionCounter w' < 9007199254740992)%Z ->
  fst (generateTransactionId w) = fst (generateTransactionId w') ->
  now w = now w' /\ transactionCounter w = transactionCounter w'.
Proof.
  intros Hroom Hroom'. apply Z.ltb_lt in Hroom, Hroom'.
  unfold generateTransactionId, increment_counter. rewrite Hroom, Hroom'. simpl.
  intros Heq. injection Heq as Heq.
  apply split_at_underscore in Heq as [Hnow Hcounter];
    try apply pretty_Z_underscore_free.
  apply (inj pretty) in Hnow. apply (inj pretty) in Hcounter.
  split; [exact Hnow|lia].
Qed.

(** X6.  While the clock shows a time value and the counter is below
    2^53 - 1, the identifier [trx_<time>_<counter>] determines both the
    time and the counter it was built from: identifiers generated at
    different values of [transactionCounter], or at different times,
    differ, and the identifier generated next differs from the one just
    generated, also when the clock has not moved. *)
Theorem transaction_ids_are_unique (w w' : World) :
  within_number_range w ->
  within_number_range w' ->
  now w <> now w' \/ transactionCounter w <> transactionCounter w' ->
  fst (generateTransactionId w) <> fst (generateTransactionId w') /\
  fst (generateTransactionId (snd (generateTransactionId w))) <>
    fst (generateTransactionId w).
Proof.
  intros (_ & Hcounter) (_ & Hcounter') Hdiffer. split.
  - intros Heq. apply generateTransactionId_inj in Heq as [Hnow Hsame]; [|lia|lia].
    destruct Hdiffer; contradiction.
  - intros Heq. apply generateTransactionId_inj in Heq as [_ Hsame]; [| |lia].
    + revert Hsame. unfold generateTransactionId, increment_counter. simpl.
      destruct (transactionCounter w <? 9007199254740992)%Z eqn:Hroom; [lia|].
      apply Z.ltb_ge in Hroom. lia.
    + unfold generateTransactionId, increment_counter. simpl.
      destruct (transactionCounter w <? 9007199254740992)%Z; lia.
Qed.

(** At 2^53 the counter no longer moves and the identifier is produced
    again. *)
Example identifier_repeats_at_the_limit :
  let w := mkWorld 1000 9007199254740991 0 [] [] in
  let w1 := snd (generateTransactionId w) in
  fst (generateTransactionId w) = "trx_1000_9007199254740992" /\
  fst (generateTransactionId w1) = "trx_1000_9007199254740992" /\
  fst (generateTransactionId (snd (generateTransactionId w1))) =
    "trx_1000_9007199254740992".
Proof. vm_compute. repeat split. Qed.

End Identifiers.

(** ** Retry budgets *)

Section RetryBudget.

Variable layer : DataLayer.

(** X7.  A retry configuration whose [attempts] is zero or negative
    retries nothing: when the unit of work fails, the only call made
    afterwards is one rollback, no timer is started, and the failure is
    thrown again once the rollback has succeeded. *)
Theorem spent_budget_retries_nothing {T} (fn : Async T) (options : TransactionOptions)
    (r : RetryOptions) (w : World) (context : TransactionContext) (w1 : World)
    (error : Error) (w2 : World) :
  retry options = Some r ->
  (attempts r <= 0)%Z ->
  open_context layer options w = (Resolved context, w1) ->
  fn (Some context) w1 = (Rejected error, w2) ->
  calls (snd (runInTransaction layer fn options None w)) =
    calls w2 ++ [CallRollback (ctx_transaction context)] /\
  (rollback_fails layer (ctx_transaction context) = None ->
   fst (runInTransaction layer fn options None w) = Rejected error).
Proof.
  intros Hretry Hspent Hopen Hfn.
  assert (Hleft : (0 <? attempts r)%Z = false) by (apply Z.ltb_ge; exact Hspent).
  rewrite runInTransaction_open, Hopen, (try_block_body_failed layer _ _ _ _ _ _ Hfn).
  pose proof (rollback_block_calls layer options context w2) as Hcalls.
  destruct (rollback_block layer options context w2) as [[[]|e] w3] eqn:Hrb.
  - unfold retry_or_rethrow. rewrite Hretry, Hleft. simpl in *.
    split; [exact Hcalls|reflexivity].
  - simpl in *. split; [exact Hcalls|].
    intros Hok.
    destruct (rollback_block_resolved layer options context w2 Hok) as (w4 & Heq & _).
    congruence.
Qed.

(** X8.  A retry hides the failure it follows.  When the first attempt
    fails, is rolled back and a retry is left, and the unit of work then
    succeeds in the second attempt and is committed, the caller receives
    the result of the second attempt and never the first failure;
    between the two runs of the unit of work the calls are the rollback
    of the first transaction, the timer and the [transaction()] call of
    the second attempt, which is made with the same connection and
    isolation level. *)
Theorem retry_hides_earlier_failure {T} (fn : Async T) (options : TransactionOptions)
    (r : RetryOptions) (w : World) (context : TransactionContext) (w1 : World)
    (error : Error) (w2 w3 : World) (context' : TransactionContext) (w5 : World)
    (result : T) (w6 : World) :
  retry options = Some r ->
  (0 < attempts r)%Z ->
  open_context layer options w = (Resolved context, w1) ->
  fn (Some context) w1 = (Rejected error, w2) ->
  rollback_block layer options context w2 = (Resolved tt, w3) ->
  open_context layer (decrement_retry options r) (before_retry options context r w3) =
    (Resolved context', w5) ->
  fn (Some context') w5 = (Resolved result, w6) ->
  commit_fails layer (ctx_transaction context') = None ->
  exists w7,
    runInTransaction layer fn options None w = (Resolved result, w7) /\
    calls w5 =
      calls w2 ++ [CallRollback (ctx_transaction context); CallSetTimeout (delay r);
                   CallTransaction (select_database options) (isolationLevel options)] /\
    calls w7 = calls w6 ++ [CallCommit (ctx_transaction context')].
Proof.
  intros Hretry Hleft Hopen Hfn Hrb Hopen' Hfn' Hcommit.
  apply Z.ltb_lt in Hleft.
  destruct (committed_run layer fn (decrement_retry options r)
              (before_retry options context r w3) context' w5 result w6
              Hopen' Hfn' Hcommit) as (w7 & Hrun & Hcalls7).
  exists w7. split; [|split].
  - rewrite runInTransaction_open, Hopen, (try_block_body_failed layer _ _ _ _ _ _ Hfn), Hrb.
    unfold retry_or_rethrow. rewrite Hretry, Hleft. exact Hrun.
  - destruct (open_context_resolved layer _ _ _ _ Hopen') as (_ & _ & _ & _ & Hcalls5).
    rewrite Hcalls5, before_retry_calls.
    pose proof (rollback_block_calls layer options context w2) as Hcalls3.
    rewrite Hrb in Hcalls3. simpl in Hcalls3. rewrite Hcalls3.
    rewrite <- !app_assoc. reflexivity.
  - exact Hcalls7.
Qed.

End RetryBudget.

(** ** Option injection and the model mixin *)

Section Injection.

Variable layer : DataLayer.

(** X9.  [injectTransaction] touches no option but [client]: every other
    field of the options it is given comes back as it was. *)
Theorem injectTransaction_keeps_other_fields (o : gmap string JsValue) (store : Store)
    (key : string) :
  key <> "client" ->
  injectTransaction (Some o) store !! key = o !! key.
Proof.
  intros Hkey. unfold injectTransaction.
  destruct (getCurrentTransaction store) as [trx|]; [|reflexivity].
  destruct (truthy (client_of (Some o))); [reflexivity|].
  simpl. apply lookup_insert_ne. congruence.
Qed.

Lemma injected_twice (options : option (gmap string JsValue)) (store : Store) :
  injected (injected options store) store = injected options store.
Proof.
  unfold injected, injectTransaction. f_equal.
  destruct (getCurrentTransaction store) as [trx|]; [|reflexivity].
  destruct (truthy (client_of options)) eqn:Hclient.
  - destruct options as [o|]; simpl in *; [|discriminate].
    rewrite Hclient. reflexivity.
  - simpl. rewrite lookup_insert_eq. reflexivity.
Qed.

(** X10.  Injecting twice is injecting once: the options produced by
    [injectTransaction] pass through a second [injectTransaction] on the
    same execution path unchanged. *)
Theorem injectTransaction_idempotent (options : option (gmap string JsValue))
    (store : Store) :
  injectTransaction (Some (injectTransaction options store)) store =
  injectTransaction options store.
Proof.
  unfold injectTransaction.
  destruct (getCurrentTransaction store) as [trx|]; [|reflexivity].
  destruct (truthy (client_of options)) eqn:Hclient.
  - destruct options as [o|]; simpl in *; [|discriminate].
    rewrite Hclient. reflexivity.
  - simpl. rewrite lookup_insert_eq. reflexivity.
Qed.

(** X11.  While a transaction is current, options that are absent or
    have no [client] field come back with the current transaction
    attached under [client]; absent options give the object that holds
    this one field. *)
Theorem injectTransaction_adds_missing_client (options : option (gmap string JsValue))
    (store : Store) (trx : TransactionClient) :
  getCurrentTransaction store = Some trx ->
  options = None \/ (exists o, options = Some o /\ o !! "client" = None) ->
  injectTransaction options store =
    <["client" := JsTransaction trx]> (default ∅ options) /\
  (options = None -> injectTransaction options store = {["client" := JsTransaction trx]}).
Proof.
  intros Hcurrent Hmissing.
  assert (Hclient : client_of options = JsUndefined).
  { destruct Hmissing as [->|(o & -> & Hnone)]; simpl; [|rewrite Hnone]; reflexivity. }
  assert (Hinject : injectTransaction options store =
                    <["client" := JsTransaction trx]> (default ∅ options)).
  { unfold injectTransaction. rewrite Hcurrent, Hclient. reflexivity. }
  split; [exact Hinject|].
  intros ->. rewrite Hinject. reflexivity.
Qed.

(** X12.  While a transaction is current, the options that leave
    [injectTransaction] always carry a truthy [client]: the value the
    caller gave when that was truthy, the current transaction
    otherwise. *)
Theorem injected_client_is_truthy (options : option (gmap string JsValue))
    (store : Store) (trx : TransactionClient) :
  getCurrentTransaction store = Some trx ->
  injectTransaction options store !! "client" =
    Some (if truthy (client_of options) then client_of options else JsTransaction trx) /\
  truthy (client_of (Some (injectTransaction options store))) = true.
Proof.
  intros Hcurrent.
  assert (Hlookup : injectTransaction options store !! "client" =
            Some (if truthy (client_of options) then client_of options
                  else JsTransaction trx)).
  { unfold injectTransaction. rewrite Hcurrent.
    destruct (truthy (client_of options)) eqn:Hclient.
    - destruct options as [o|]; simpl in *; [|discriminate].
      destruct (o !! "client") as [v|]; simpl in *; [reflexivity|discriminate].
    - apply lookup_insert_eq. }
  split; [exact Hlookup|].
  simpl. rewrite Hlookup. simpl.
  destruct (truthy (client_of options)) eqn:Hclient; [exact Hclient|reflexivity].
Qed.

(** X13.  With no transaction current, every static method of
    [Transactional(superclass)] is the method of the superclass, called
    with the caller's options, or with the empty object when the caller
    gave none. *)
Theorem Transactional_outside_transaction {V R} (superclass : LucidModel V R)
    (options : option (gmap string JsValue)) (store : Store) (w : World)
    (v v' : V) (vs : list V) (key : string) :
  getCurrentTransaction store = None ->
  let passed := Some (default ∅ options) in
  query (Transactional superclass) options store w = query superclass passed store w /\
  create (Transactional superclass) v options store w =
    create superclass v passed store w /\
  createMany (Transactional superclass) vs options store w =
    createMany superclass vs passed store w /\
  updateOrCreate (Transactional superclass) v v' options store w =
    updateOrCreate superclass v v' passed store w /\
  find (Transactional superclass) v options store w = find superclass v passed store w /\
  findBy (Transactional superclass) key v options store w =
    findBy superclass key v passed store w /\
  findOrFail (Transactional superclass) v options store w =
    findOrFail superclass v passed store w /\
  first (Transactional superclass) options store w = first superclass passed store w /\
  firstOrFail (Transactional superclass) options store w =
    firstOrFail superclass passed store w.
Proof.
  intros Hnone passed.
  assert (Hinjected : injected options store = passed)
    by (unfold injected, injectTransaction; rewrite Hnone; reflexivity).
  simpl. rewrite Hinjected. repeat split.
Qed.

(** X14.  Applying the mixin twice is applying it once: every static
    method of [Transactional(Transactional(superclass))] behaves as the
    same method of [Transactional(superclass)]. *)
Theorem Transactional_idempotent {V R} (superclass : LucidModel V R)
    (options : option (gmap string JsValue)) (store : Store) (w : World)
    (v v' : V) (vs : list V) (key : string) :
  let once := Transactional superclass in
  let twice := Transactional (Transactional superclass) in
  query twice options store w = query once options store w /\
  create twice v options store w = create once v options store w /\
  createMany twice vs options store w = createMany once vs options store w /\
  updateOrCreate twice v v' options store w = updateOrCreate once v v' options store w /\
  find twice v options store w = find once v options store w /\
  findBy twice key v options store w = findBy once key v options store w /\
  findOrFail twice v options store w = findOrFail once v options store w /\
  first twice options store w = first once options store w /\
  firstOrFail twice options store w = firstOrFail once options store w.
Proof.
  intros once twice.
  assert (Hsame : injected (injected options store) store = injected options store)
    by apply injected_twice.
  simpl. rewrite Hsame. repeat split.
Qed.

(** X15.  A [create] of a [Transactional] model run as the unit of work
    of a top-level [runInTransaction], with options that carry no
    truthy [client], calls the superclass with the transaction that the
    controller has just opened; when that call succeeds and the commit
    succeeds, the transaction committed is this same one and the caller
    receives the result of the superclass. *)
Theorem Transactional_create_uses_committed_handle {V R} (superclass : LucidModel V R)
    (values : V) (options : option (gmap string JsValue))
    (settings : TransactionOptions) (w : World) (context : TransactionContext)
    (w1 : World) (result : R) (w2 : World) :
  truthy (client_of options) = false ->
  open_context layer settings w = (Resolved context, w1) ->
  create superclass values
    (Some (<["client" := JsTransaction (ctx_transaction context)]> (default ∅ options)))
    (Some context) w1 = (Resolved result, w2) ->
  commit_fails layer (ctx_transaction context) = None ->
  exists w3,
    runInTransaction layer (create (Transactional superclass) values options)
      settings None w = (Resolved result, w3) /\
    calls w3 = calls w2 ++ [CallCommit (ctx_transaction context)].
Proof.
  intros Hclient Hopen Hcreate Hcommit.
  apply committed_run with (w1 := w1); try assumption.
  simpl. unfold injected, injectTransaction. simpl. rewrite Hclient. exact Hcreate.
Qed.

End Injection.

(** ** Sequences *)

Section Sequences.

Variable layer : DataLayer.

Lemma sequence_loop_accumulates {T} (operations : list (Async T)) (results : list T)
    store w :
  sequence_loop operations results store w =
  match sequence_loop operations [] store w with
  | (Resolved rs, w') => (Resolved (results ++ rs), w')
  | (Rejected e, w') => (Rejected e, w')
  end.
Proof.
  revert results w. induction operations as [|operation rest IH]; intros results w; simpl.
  - rewrite app_nil_r. reflexivity.
  - destruct (operation store w) as [[r|e] w1]; [|reflexivity].
    rewrite (IH (results ++ [r])), (IH [r]).
    destruct (sequence_loop rest [] store w1) as [[rs|e] w2]; [|reflexivity].
    rewrite <- app_assoc. reflexivity.
Qed.

Lemma sequence_loop_length {T} (operations : list (Async T)) (results rs : list T)
    store w w' :
  sequence_loop operations results store w = (Resolved rs, w') ->
  length rs = length results + length operations.
Proof.
  revert results w. induction operations as [|operation rest IH]; intros results w; simpl.
  - intros H. injection H as <- _. lia.
  - destruct (operation store w) as [[r|e] w1]; [|discriminate].
    intros H. apply IH in H. rewrite H, length_app. simpl. lia.
Qed.

Lemma sequence_loop_append {T} (before after : list (Async T)) (results : list T)
    (store : Store) (w : World) :
  sequence_loop (before ++ after) results store w =
  match sequence_loop before results store w with
  | (Resolved rs, w1) => sequence_loop after rs store w1
  | (Rejected e, w1) => (Rejected e, w1)
  end.
Proof.
  revert results w. induction before as [|operation rest IH]; intros results w; simpl.
  - reflexivity.
  - destruct (operation store w) as [[r|e] w1]; [apply IH|reflexivity].
Qed.

(** X16.  The loop of [sequence] over two lists of operations one after
    the other is the loop over the first followed, if it succeeded, by
    the loop over the second, started in the world the first left and
    with the results gathered so far. *)
Theorem sequence_loop_app {T} (before after : list (Async T)) (results : list T)
    (store : Store) (w : World) :
  sequence_loop (before ++ after) results store w =
  match sequence_loop before results store w with
  | (Resolved rs, w1) => sequence_loop after rs store w1
  | (Rejected e, w1) => (Rejected e, w1)
  end.
Proof.
  revert results w. induction before as [|operation rest IH]; intros results w; simpl.
  - reflexivity.
  - destruct (operation store w) as [[r|e] w1]; [apply IH|reflexivity].
Qed.

Lemma sequence_loop_first_failure {T} (before after : list (Async T))
    (operation : Async T) (store : Store) (w : World) (rs : list T) (w1 : World)
    (e : Error) (w2 : World) :
  sequence_loop before [] store w = (Resolved rs, w1) ->
  operation store w1 = (Rejected e, w2) ->
  sequence_loop (before ++ operation :: after) [] store w = (Rejected e, w2).
Proof.
  intros Hbefore Hfails. rewrite sequence_loop_append, Hbefore. simpl.
  rewrite Hfails. reflexivity.
Qed.

(** X17.  The first operation that fails ends the loop of [sequence]:
    the loop fails with the failure of that operation in the world that
    operation left, whatever operations follow it, so none of them is
    run. *)
Theorem sequence_loop_stops_at_first_failure {T} (before after : list (Async T))
    (operation : Async T) (store : Store) (w : World) (rs : list T) (w1 : World)
    (e : Error) (w2 : World) :
  sequence_loop before [] store w = (Resolved rs, w1) ->
  operation store w1 = (Rejected e, w2) ->
  sequence_loop (before ++ operation :: after) [] store w = (Rejected e, w2).
Proof.
  intros Hbefore Hfails. rewrite sequence_loop_append, Hbefore. simpl.
  rewrite Hfails. reflexivity.
Qed.

(** X18.  When the loop of [sequence] succeeds it returns one result per
    operation, in the order of the operations: the operation at index
    [i] was run in the world left by the [i] operations before it, and
    its result is the result at index [i]. *)
Theorem sequence_results_in_order {T} (operations : list (Async T)) (store : Store)
    (w : World) (rs : list T) (w' : World) :
  sequence_loop operations [] store w = (Resolved rs, w') ->
  length rs = length operations /\
  forall (i : nat) (operation : Async T),
    operations !! i = Some operation ->
    exists r wi wi',
      sequence_loop (take i operations) [] store w = (Resolved (take i rs), wi) /\
      operation store wi = (Resolved r, wi') /\
      rs !! i = Some r.
Proof.
  intros Hloop. split.
  - apply sequence_loop_length in Hloop. simpl in Hloop. exact Hloop.
  - intros i operation Hi.
    rewrite <- (take_drop_middle operations i operation Hi) in Hloop.
    rewrite sequence_loop_append in Hloop.
    destruct (sequence_loop (take i operations) [] store w) as [[rs1|e] wi] eqn:Hbefore;
      [|discriminate].
    simpl in Hloop.
    destruct (operation store wi) as [[r|e] wi'] eqn:Hop; [|discriminate].
    rewrite sequence_loop_accumulates in Hloop.
    destruct (sequence_loop (drop (S i) operations) [] store wi') as [[rs2|e] w2];
      [|discriminate].
    injection Hloop as <- _.
    assert (Hlen : length rs1 = i).
    { apply sequence_loop_length in Hbefore. simpl in Hbefore.
      rewrite Hbefore, length_take. apply lookup_lt_Some in Hi. lia. }
    exists r, wi, wi'. split; [|split].
    + rewrite <- app_assoc, <- Hlen, take_app_length. reflexivity.
    + exact Hop.
    + rewrite <- app_assoc, <- Hlen. apply list_lookup_middle. reflexivity.
Qed.

(** X19.  [sequence] over no operation at all, called while no record
    is current, still opens a transaction and commits it: when both
    calls succeed it returns the empty list, and the [transaction()]
    call and the commit are the only calls made. *)
Theorem sequence_of_nothing {T} (options : TransactionOptions) (w : World)
    (context : TransactionContext) (w1 : World) :
  open_context layer options w = (Resolved context, w1) ->
  commit_fails layer (ctx_transaction context) = None ->
  exists w3,
    sequence (T := T) layer [] options None w = (Resolved [], w3) /\
    calls w3 = calls w ++ [CallTransaction (select_database options) (isolationLevel options);
                           CallCommit (ctx_transaction context)].
Proof.
  intros Hopen Hcommit.
  destruct (committed_run layer (sequence_loop (T := T) [] []) options w context w1 [] w1
              Hopen eq_refl Hcommit) as (w3 & Hrun & Hcalls).
  exists w3. split; [exact Hrun|].
  destruct (open_context_resolved layer _ _ _ _ Hopen) as (_ & _ & _ & _ & Hcalls1).
  rewrite Hcalls, Hcalls1, <- app_assoc. reflexivity.
Qed.

(** X20.  When an operation of a top-level [sequence] with no retry
    configured fails, the operations after it are not run, the only call
    made after the failing operation is one rollback of the
    transaction, so nothing is committed, and once that rollback has
    succeeded the caller receives the failure of the operation. *)
Theorem sequence_failure_rolls_back {T} (before after : list (Async T))
    (operation : Async T) (options : TransactionOptions) (w : World)
    (context : TransactionContext) (w1 : World) (rs : list T) (w2 : World)
    (e : Error) (w3 : World) :
  retry options = None ->
  open_context layer options w = (Resolved context, w1) ->
  sequence_loop before [] (Some context) w1 = (Resolved rs, w2) ->
  operation (Some context) w2 = (Rejected e, w3) ->
  calls (snd (sequence layer (before ++ operation :: after) options None w)) =
    calls w3 ++ [CallRollback (ctx_transaction context)] /\
  (rollback_fails layer (ctx_transaction context) = None ->
   fst (sequence layer (before ++ operation :: after) options None w) = Rejected e).
Proof.
  intros Hretry Hopen Hbefore Hfails. unfold sequence.
  apply caught_without_retry with (w1 := w1); try assumption.
  apply try_block_body_failed.
  apply sequence_loop_first_failure with (rs := rs) (w1 := w2); assumption.
Qed.

End Sequences.

(** * The further properties at work on concrete runs *)

Lemma unit_of_work_runs_bound_witness :
  runInTransaction dependable (succeed_with 3) (retrying 1 0) None quiet_world =
  runInTransaction dependable
    (fun store w =>
       match store with
       | Some _ => (Resolved 3, w)
       | None => (Rejected error_x, w)
       end)
    (retrying 1 0) None quiet_world.
Proof.
  apply (unit_of_work_runs_bound dependable). intros context w0. reflexivity.
Defined.

Lemma nesting_is_transparent_witness :
  runInTransaction dependable
    (runInTransaction dependable (@fail_with nat error_x) (retrying 5 10))
    (retrying 1 0) None quiet_world =
  runInTransaction dependable (@fail_with nat error_x) (retrying 1 0) None quiet_world.
Proof.
  apply (nesting_is_transparent dependable (@fail_with nat error_x) (retrying 5 10)
           (retrying 1 0) None quiet_world).
  discriminate.
Defined.

(** A method that awaits a computation of its own and then calls a
    second method twice, each time with what came before. *)
Lemma decorated_methods_share_transaction_witness :
  let body (m : unit -> nat -> Async nat) (this : unit) (args : nat) :=
    await_then (succeed_with (args + 1)) (fun a =>
    await_then (m this a) (fun r =>
    await_then (m this r) (fun r' => succeed_with (r + r')))) in
  transaction dependable noOptions
    (body (transaction dependable (retrying 2 0) (fun _ n => succeed_with (n * 2))))
    tt 4 None quiet_world =
  transaction dependable noOptions (body (fun _ n => succeed_with (n * 2)))
    tt 4 None quiet_world.
Proof.
  intros body.
  apply (decorated_methods_share_transaction dependable noOptions (retrying 2 0)
           (fun (_ : unit) n => succeed_with (n * 2)) body tt 4 None quiet_world).
  - discriminate.
  - intros m m' Hm this0 args0 context w0. unfold body.
    apply await_then_bound; [reflexivity|].
    intros a c w1. apply await_then_bound; [intros; apply Hm|].
    intros r c' w2. apply await_then_bound; [intros; apply Hm|reflexivity].
Defined.

Lemma stats_report_outermost_call_witness :
  exists duration,
    fst (runInTransaction dependable
           (runInTransaction dependable read_stats (retrying 3 0))
           noOptions None quiet_world) =
    Resolved (Some ("trx_1000_1", duration, noOptions)).
Proof.
  exact (stats_report_outermost_call dependable (retrying 3 0) noOptions quiet_world
           _ _ eq_refl eq_refl).
Defined.

Lemma transaction_ids_are_unique_witness :
  fst (generateTransactionId quiet_world) <>
  fst (generateTransactionId (mkWorld 1000 1 0 [] [])).
Proof.
  apply (transaction_ids_are_unique quiet_world (mkWorld 1000 1 0 [] [])).
  - split; simpl; lia.
  - split; simpl; lia.
  - right. discriminate.
Defined.

Lemma spent_budget_retries_nothing_witness :
  calls (snd (runInTransaction dependable (@fail_with nat error_x) (retrying (-1) 50)
                None quiet_world)) =
    [CallTransaction DefaultConnection None; CallRollback 0] /\
  fst (runInTransaction dependable (@fail_with nat error_x) (retrying (-1) 50)
         None quiet_world) = Rejected error_x.
Proof.
  destruct (spent_budget_retries_nothing dependable (@fail_with nat error_x)
              (retrying (-1) 50) (mkRetry (-1) 50) quiet_world _ _ error_x _
              eq_refl ltac:(simpl; lia) eq_refl eq_refl) as (Hcalls & Hrethrown).
  split; [exact Hcalls|exact (Hrethrown eq_refl)].
Defined.

Lemma retry_hides_earlier_failure_witness :
  exists w7,
    runInTransaction dependable (fails_on_first error_x 3) (retrying 1 0) None
      quiet_world = (Resolved 3, w7) /\
    calls w7 =
      [CallTransaction DefaultConnection None; CallRollback 0; CallSetTimeout 0;
       CallTransaction DefaultConnection None; CallCommit 1].
Proof.
  destruct (retry_hides_earlier_failure dependable (fails_on_first error_x 3)
              (retrying 1 0) (mkRetry 1 0) quiet_world _ _ error_x _ _ _ _ 3 _
              eq_refl ltac:(simpl; lia) eq_refl eq_refl eq_refl eq_refl eq_refl eq_refl)
    as (w7 & Hrun & _ & Hcalls).
  exists w7. split; [exact Hrun|exact Hcalls].
Defined.

Lemma injectTransaction_keeps_other_fields_witness :
  injectTransaction (Some {["connection" := JsString "replica"]}) (Some some_context)
    !! "connection" = Some (JsString "replica").
Proof.
  refine (injectTransaction_keeps_other_fields {["connection" := JsString "replica"]}
            (Some some_context) "connection" _).
  discriminate.
Defined.

Lemma injectTransaction_adds_missing_client_witness :
  injectTransaction None (Some some_context) = {["client" := JsTransaction 7]}.
Proof.
  destruct (injectTransaction_adds_missing_client None (Some some_context) 7 eq_refl
              (or_introl eq_refl)) as (_ & Habsent).
  exact (Habsent eq_refl).
Defined.

Lemma injected_client_is_truthy_witness :
  truthy (client_of (Some (injectTransaction (Some {["client" := JsBoolean false]})
                             (Some some_context)))) = true.
Proof.
  apply (injected_client_is_truthy (Some {["client" := JsBoolean false]})
           (Some some_context) 7).
  reflexivity.
Defined.

Lemma Transactional_outside_transaction_witness :
  find (Transactional echo_model) 1 None None quiet_world =
  find echo_model 1 (Some ∅) None quiet_world.
Proof.
  destruct (Transactional_outside_transaction echo_model None None quiet_world 1 1 [] ""
              eq_refl) as (_ & _ & _ & _ & Hfind & _).
  exact Hfind.
Defined.

Lemma Transactional_create_uses_committed_handle_witness :
  exists w3,
    runInTransaction dependable (create (Transactional echo_model) 1 None) noOptions
      None quiet_world = (Resolved {["client" := JsTransaction 0]}, w3) /\
    calls w3 = [CallTransaction DefaultConnection None; CallCommit 0].
Proof.
  exact (Transactional_create_uses_committed_handle dependable echo_model 1 None
           noOptions quiet_world _ _ _ _ eq_refl eq_refl eq_refl eq_refl).
Defined.

Lemma sequence_loop_stops_at_first_failure_witness :
  sequence_loop ([succeed_with 1] ++ fail_with error_x :: [succeed_with 3]) []
    None quiet_world = (Rejected error_x, quiet_world).
Proof.
  apply (sequence_loop_stops_at_first_failure [succeed_with 1] [succeed_with 3]
           (fail_with error_x) None quiet_world [1] quiet_world error_x quiet_world);
    reflexivity.
Defined.

Lemma sequence_results_in_order_witness :
  exists r wi wi',
    sequence_loop [succeed_with 1] [] None quiet_world = (Resolved [1], wi) /\
    succeed_with 2 None wi = (Resolved r, wi') /\
    [1; 2; 3] !! 1 = Some r.
Proof.
  destruct (sequence_results_in_order [succeed_with 1; succeed_with 2; succeed_with 3]
              None quiet_world [1; 2; 3] quiet_world eq_refl) as (_ & Hordered).
  exact (Hordered 1 (succeed_with 2) eq_refl).
Defined.

Lemma sequence_of_nothing_witness :
  exists w3,
    sequence (T := nat) dependable [] noOptions None quiet_world = (Resolved [], w3) /\
    calls w3 = [CallTransaction DefaultConnection None; CallCommit 0].
Proof.
  exact (sequence_of_nothing (T := nat) dependable noOptions quiet_world _ _
           eq_refl eq_refl).
Defined.

Lemma sequence_failure_rolls_back_witness :
  calls (snd (sequence dependable
                ([succeed_with 1] ++ fail_with error_x :: [succeed_with 3])
                noOptions None quiet_world)) =
    [CallTransaction DefaultConnection None; CallRollback 0] /\
  fst (sequence dependable ([succeed_with 1] ++ fail_with error_x :: [succeed_with 3])
         noOptions None quiet_world) = Rejected error_x.
Proof.
  destruct (sequence_failure_rolls_back dependable [succeed_with 1] [succeed_with 3]
              (fail_with error_x) noOptions quiet_world _ _ [1] _ error_x _
              eq_refl eq_refl eq_refl eq_refl) as (Hcalls & Hrethrown).
  split; [exact Hcalls|exact (Hrethrown eq_refl)].
Defined.
